(** * A shallow embedding of pysignald ([src/main.py], [src/types.py])

    The client speaks line-delimited JSON to the signald daemon.  This file
    models the command client ([Signal._send_command] and the operations
    built on it), the message stream reader ([Signal.receive_messages]) and
    the chat dispatcher ([Signal.chat_handler], [Signal.run_chat]). *)

From Stdlib Require Import Ascii String List ZArith Bool Sorted Lia.
Import ListNotations.
Open Scope string_scope.
Set Warnings "-register-all".

(** ** Python values decoded from JSON

    [json.loads] produces [None], booleans, numbers, strings, lists and
    dicts.  A dict is kept as the association list of its (distinct) keys in
    insertion order. *)
Inductive json : Type :=
| JNull
| JBool (b : bool)
| JNum (z : Z)
| JStr (s : string)
| JArr (items : list json)
| JObj (kvs : list (string * json)).

(** The Python exceptions the modelled code can raise. *)
Inductive exn : Type :=
| KeyError
| AttributeError
| TypeError
| ValueError_unpack          (* [stop, reply = reply] on a tuple of wrong size *)
| JSONDecodeError
| UnboundLocalError          (* reading [message] before any assignment *)
| ProtocolError              (* [raise ValueError("unexpected error occurred")] *)
| ConnectionResetError.

(** Python truthiness of a decoded value. *)
Definition truthy (v : json) : bool :=
  match v with
  | JNull => false
  | JBool b => b
  | JNum z => negb (Z.eqb z 0)
  | JStr s => negb (String.eqb s EmptyString)
  | JArr l => match l with [] => false | _ => true end
  | JObj l => match l with [] => false | _ => true end
  end.

(** [v == s] for a Python string [s]: only a string equal to [s]. *)
Definition is_str (v : json) (s : string) : bool :=
  match v with JStr s' => String.eqb s' s | _ => false end.

Fixpoint assoc (k : string) (kvs : list (string * json)) : option json :=
  match kvs with
  | [] => None
  | (k', v) :: rest => if String.eqb k' k then Some v else assoc k rest
  end.

(** [d.get(k, default)]: an [AttributeError] on anything but a dict. *)
Definition py_get (d : json) (k : string) (default : json) : json + exn :=
  match d with
  | JObj kvs => match assoc k kvs with Some v => inl v | None => inl default end
  | _ => inr AttributeError
  end.

(** [d[k]] with a string key: [KeyError] on a dict without [k],
    [TypeError] on lists, strings and scalars. *)
Definition py_getitem (d : json) (k : string) : json + exn :=
  match d with
  | JObj kvs => match assoc k kvs with Some v => inl v | None => inr KeyError end
  | _ => inr TypeError
  end.

(** Substring test ([needle in hay] on strings and on bytes). *)
Fixpoint contains_sub (needle hay : string) : bool :=
  if String.prefix needle hay then true
  else match hay with
       | EmptyString => false
       | String _ rest => contains_sub needle rest
       end.

(** [k in v] for a string [k]: key membership on dicts, substring on
    strings, element equality on lists, [TypeError] otherwise. *)
Definition py_in (k : string) (v : json) : bool + exn :=
  match v with
  | JObj kvs => inl (existsb (fun kv => String.eqb (fst kv) k) kvs)
  | JStr s => inl (contains_sub k s)
  | JArr l => inl (existsb (fun x => is_str x k) l)
  | _ => inr TypeError
  end.

(** [d[k] = v] on a dict: replace the binding in place or append it. *)
Fixpoint set_key (k : string) (v : json) (kvs : list (string * json))
  : list (string * json) :=
  match kvs with
  | [] => [(k, v)]
  | (k', v') :: rest =>
      if String.eqb k' k then (k', v) :: rest else (k', v') :: set_key k v rest
  end.

(** ** The command client ([Signal._send_command])

    One line of the bounded response chunk [s.recv(4 * 1024).split(b"\n")]:
    its raw bytes, and what [json.loads] makes of them ([None] when the line
    is not valid JSON). *)
Record line : Type := mkLine { raw : string; parsed : option json }.

(** What a command call does: return a value ([None] is Python's [None])
    or raise. *)
Inductive cmd_result : Type :=
| Returned (r : option json)
| Raised (e : exn).

(** The loop [for line in response.split(b"\n"): ...] of the blocking path. *)
Fixpoint scan_response (msg_id : string) (lines : list line) : cmd_result :=
  match lines with
  | [] => Returned None
  | l :: rest =>
      if negb (contains_sub msg_id (raw l)) then scan_response msg_id rest
      else
        match parsed l with
        | None => Raised JSONDecodeError
        | Some data =>
            match py_get data "id" JNull with
            | inr e => Raised e
            | inl v =>
                if negb (is_str v msg_id) then scan_response msg_id rest
                else
                  match py_getitem data "type" with
                  | inr e => Raised e
                  | inl t =>
                      if is_str t "unexpected_error" then Raised ProtocolError
                      else Returned (Some data)
                  end
            end
        end
  end.

(** [_send_command(payload, block)]: [msg_id] is the value of [_get_id()]
    and [response] the chunk read back from the daemon.  The result pairs
    the payload written on the socket with the outcome of the call. *)
Definition _send_command (payload : list (string * json)) (block : bool)
    (msg_id : string) (response : list line) : json * cmd_result :=
  let sent := JObj (set_key "id" (JStr msg_id) payload) in
  if negb block then (sent, Returned None)
  else (sent, scan_response msg_id response).

(** [register(voice=False)] and [verify(code)]: [self._send_command(payload)]
    with the default [block=False]. *)
Definition register (username : string) (voice : bool)
    (msg_id : string) (response : list line) : json * cmd_result :=
  _send_command [("type", JStr "register"); ("username", JStr username);
                 ("voice", JBool voice)] false msg_id response.

Definition verify (username : string) (code : string)
    (msg_id : string) (response : list line) : json * cmd_result :=
  _send_command [("type", JStr "verify"); ("username", JStr username);
                 ("code", JStr code)] false msg_id response.

(** The payloads of [send_message] (default [block=True]) and
    [send_group_message] (default [block=False]), with their block flag. *)
Definition send_message_cmd (username : string) (recipient text : json)
  : list (string * json) * bool :=
  ([("type", JStr "send"); ("username", JStr username);
    ("recipientAddress", recipient); ("messageBody", text)], true).

Definition send_group_message_cmd (username : string) (group_id text : json)
  : list (string * json) * bool :=
  ([("type", JStr "send"); ("username", JStr username);
    ("recipientGroupId", group_id); ("messageBody", text)], false).

(** ** The message stream reader ([Signal.receive_messages]) *)

(** [types.Attachment] and [types.Message] (attrs classes).  The fields hold
    whatever [receive_messages] passes to the constructors. *)
Record Attachment : Type := mkAttachment {
  content_type : json; att_id : json; size : json; stored_filename : json }.

Record Message : Type := mkMessage {
  username : json;
  source : json;
  text : json;
  source_device : json;
  timestamp : json;
  timestamp_iso : json;
  attachments : list Attachment;
  group_info : json;
  group_list : list json }.

(** [for x in v] over a decoded value: lists give their items, dicts their
    keys, strings their characters; scalars are not iterable. *)
Definition py_iter (v : json) : list json + exn :=
  match v with
  | JArr l => inl l
  | JObj kvs => inl (map (fun kv => JStr (fst kv)) kvs)
  | JStr s => inl (map (fun c => JStr (String c EmptyString)) (list_ascii_of_string s))
  | _ => inr TypeError
  end.

Definition make_attachment (a : json) : Attachment + exn :=
  match py_getitem a "contentType" with inr e => inr e | inl ct =>
  match py_getitem a "id" with inr e => inr e | inl i =>
  match py_getitem a "size" with inr e => inr e | inl sz =>
  match py_getitem a "storedFilename" with inr e => inr e | inl sf =>
    inl (mkAttachment ct i sz sf) end end end end.

(** The list comprehension over [data_message.get("attachments", [])]. *)
Fixpoint make_attachments (l : list json) : list Attachment + exn :=
  match l with
  | [] => inl []
  | a :: rest =>
      match make_attachment a with
      | inr e => inr e
      | inl x => match make_attachments rest with
                 | inr e => inr e
                 | inl xs => inl (x :: xs)
                 end
      end
  end.

(** Lines 112-132: [message = message["data"]] has been done; build the
    yielded [Message] from [data] (keyword arguments evaluated in order). *)
Definition build_message (data : json) : Message + exn :=
  match py_get data "dataMessage" (JObj []) with inr e => inr e | inl dm =>
  match py_get data "username" (JStr EmptyString) with inr e => inr e | inl u =>
  match py_get data "source" (JStr EmptyString) with inr e => inr e | inl src =>
  match py_get dm "body" (JStr EmptyString) with inr e => inr e | inl body =>
  match py_get data "sourceDevice" JNull with inr e => inr e | inl dev =>
  match py_get dm "timestamp" JNull with inr e => inr e | inl ts =>
  match py_get data "timestampISO" JNull with inr e => inr e | inl tsi =>
  match py_get dm "group" (JObj []) with inr e => inr e | inl g =>
  match py_get dm "attachments" (JArr []) with inr e => inr e | inl atts =>
  match py_iter atts with inr e => inr e | inl items =>
  match make_attachments items with inr e => inr e | inl xs =>
    inl (mkMessage u src body dev ts tsi xs g [])
  end end end end end end end end end end end.

(** One iteration of [for line in readlines(s)].  The loop variable
    [message] survives across iterations: [None] while it is still unbound.
    An inbound line is what [json.loads(line.decode())] makes of it
    ([None] when it raises [JSONDecodeError]). *)
Inductive step_result : Type :=
| SSkip (message : option json)
| SYield (m : Message) (message : option json)
| SRaise (e : exn).

Definition recv_step (message : option json) (l : option json) : step_result :=
  (* try: message = json.loads(...) except JSONDecodeError: print(...) *)
  let message := match l with Some j => Some j | None => message end in
  match message with
  | None => SRaise UnboundLocalError
  | Some msg =>
      match py_get msg "type" JNull with
      | inr e => SRaise e
      | inl ty =>
          if negb (is_str ty "message") then SSkip (Some msg)
          else
            match py_getitem msg "data" with
            | inr e => SRaise e
            | inl data =>
                match py_in "typing" data with
                | inr e => SRaise e
                | inl true => SSkip (Some msg)
                | inl false =>
                    match build_message data with
                    | inr e => SRaise e
                    | inl m => SYield m (Some data)
                    end
                end
            end
      end
  end.

(** How the generator stands once the lines received so far are consumed:
    still waiting for the next line (with the value of [message]), or
    terminated by an exception. *)
Inductive stream_end : Type :=
| Waiting (message : option json)
| Terminated (e : exn).

Fixpoint recv_loop (message : option json) (lines : list (option json))
  : list Message * stream_end :=
  match lines with
  | [] => ([], Waiting message)
  | l :: rest =>
      match recv_step message l with
      | SSkip st => recv_loop st rest
      | SYield m st => let (ms, e) := recv_loop st rest in (m :: ms, e)
      | SRaise e => ([], Terminated e)
      end
  end.

(** [receive_messages()]: the subscribe envelope written first, then the
    messages yielded for the inbound lines, [message] unbound at the start. *)
Definition subscribe_payload (username : string) : json :=
  JObj [("type", JStr "subscribe"); ("username", JStr username)].

Definition receive_messages (lines : list (option json))
  : list Message * stream_end :=
  recv_loop None lines.

(** ** The chat dispatcher ([Signal.chat_handler], [Signal.run_chat]) *)

(** What a handler call [func(message, match)] does: raise, or return a
    tuple (its items) or any other value. *)
Inductive retval : Type :=
| RTuple (items : list json)
| RVal (v : json).

Inductive hresult : Type :=
| HRaise
| HReturn (r : retval).

(** An entry [(order, regex, func)] of [self._chat_handlers]: the compiled
    case-insensitive pattern is kept as its [re.search] on a string (the
    matched text, or [None]). *)
Record registration : Type := mkReg {
  order : Z;
  search : string -> option string;
  func : Message -> string -> hresult }.

(** [self._chat_handlers.sort(key=lambda x: x[0])]: Python's sort is
    stable, so it is the stable insertion sort on [order]. *)
Fixpoint insert_by_order (r : registration) (l : list registration)
  : list registration :=
  match l with
  | [] => [r]
  | r' :: rest =>
      if Z.leb (order r) (order r') then r :: r' :: rest
      else r' :: insert_by_order r rest
  end.

Fixpoint sort_by_order (l : list registration) : list registration :=
  match l with
  | [] => []
  | r :: rest => insert_by_order r (sort_by_order rest)
  end.

(** [chat_handler(regex, order)(func)]: append, then sort. *)
Definition chat_handler (handlers : list registration) (r : registration)
  : list registration :=
  sort_by_order (handlers ++ [r]).

(** The handler list after the decorators ran for [rs], in that order. *)
Definition register_all (rs : list registration) : list registration :=
  fold_left chat_handler rs [].

(** What the dispatcher does, in order: evaluate a registration's pattern on
    the message, or issue a command (payload before [_send_command] adds its
    [id], and the block flag). *)
Inductive event : Type :=
| Eval (r : registration)
| Cmd (payload : list (string * json)) (block : bool).

Inductive trace : Type :=
| TDone
| TRaise (e : exn)
| TCons (ev : event) (t : trace).

Fixpoint tapp (t1 : trace) (t2 : trace) : trace :=
  match t1 with
  | TDone => t2
  | TRaise e => TRaise e
  | TCons ev t => TCons ev (tapp t t2)
  end.

(** [if isinstance(reply, tuple): stop, reply = reply else: stop = True]. *)
Definition unpack_reply (r : retval) : (json * json) + exn :=
  match r with
  | RTuple [stop; reply] => inl (stop, reply)
  | RTuple _ => inr ValueError_unpack
  | RVal v => inl (JBool true, v)
  end.

Section Dispatch.

(** [self.username], and what each command issued from the loop does:
    [None] when it returns, [Some e] when it raises [e]. *)
Variable self_username : string.
Variable cmd_outcome : list (string * json) -> bool -> option exn.

(** The reply routing of lines 230-236. *)
Definition route_reply (m : Message) (reply : json)
  : (list (string * json) * bool) + exn :=
  match py_get (group_info m) "groupId" JNull with
  | inr e => inr e
  | inl group_id =>
      if truthy group_id
      then inl (send_group_message_cmd self_username group_id reply)
      else inl (send_message_cmd self_username (source m) reply)
  end.

(** The inner loop [for _, regex, func in self._chat_handlers] on one
    message whose text is the string [txt]. *)
Fixpoint dispatch (m : Message) (txt : string) (hs : list registration)
  : trace :=
  match hs with
  | [] => TDone
  | r :: rest =>
      TCons (Eval r)
        (match search r txt with
         | None => dispatch m txt rest
         | Some mt =>
             match func r m mt with
             | HRaise => dispatch m txt rest
             | HReturn v =>
                 match unpack_reply v with
                 | inr e => TRaise e
                 | inl (stop, reply) =>
                     match route_reply m reply with
                     | inr e => TRaise e
                     | inl (payload, block) =>
                         TCons (Cmd payload block)
                           (match cmd_outcome payload block with
                            | Some e => TRaise e
                            | None =>
                                if truthy stop then TDone
                                else dispatch m txt rest
                            end)
                     end
                 end
             end
         end)
  end.

(** The body of the outer loop for one message: skip an empty text; a
    non-string text makes the first [re.search] raise [TypeError]. *)
Definition handle_message (hs : list registration) (m : Message) : trace :=
  if negb (truthy (text m)) then TDone
  else match text m with
       | JStr txt => dispatch m txt hs
       | _ => match hs with
              | [] => TDone
              | r :: _ => TCons (Eval r) (TRaise TypeError)
              end
       end.

Fixpoint run_messages (hs : list registration) (ms : list Message) : trace :=
  match ms with
  | [] => TDone
  | m :: rest => tapp (handle_message hs m) (run_messages hs rest)
  end.

(** [run_chat()] on the inbound lines received so far. *)
Definition run_chat (hs : list registration) (lines : list (option json))
  : trace :=
  let (ms, e) := receive_messages lines in
  tapp (run_messages hs ms)
       (match e with Terminated x => TRaise x | Waiting _ => TDone end).

End Dispatch.

(** The registrations whose pattern a trace evaluated, in order. *)
Fixpoint evaluated (t : trace) : list registration :=
  match t with
  | TCons (Eval r) t' => r :: evaluated t'
  | TCons (Cmd _ _) t' => evaluated t'
  | _ => []
  end.

(** ** Concrete inputs and auxiliary definitions *)

Definition bot : string := "+15550000000".

Definition peer : string := "+15551234567".

Definition corr_id : string := "abcdefghij".

(** A daemon that accepts every command. *)
Definition daemon_ok : list (string * json) -> bool -> option exn :=
  fun _ _ => None.

(** A double-quoted JSON string literal. *)
Definition quoted (s : string) : string :=
  String (Ascii.ascii_of_nat 34) (s ++ String (Ascii.ascii_of_nat 34) EmptyString).

(** The response line [{"id": "abcdefghij", "type": "unexpected_error"}]. *)
Definition error_line : line :=
  mkLine ("{" ++ quoted "id" ++ ": " ++ quoted corr_id ++ ", " ++ quoted "type"
          ++ ": " ++ quoted "unexpected_error" ++ "}")
         (Some (JObj [("id", JStr corr_id); ("type", JStr "unexpected_error")])).

(** The line [["abcdefghij"]]: valid JSON, a list holding the ID. *)
Definition array_line : line :=
  mkLine ("[" ++ quoted corr_id ++ "]") (Some (JArr [JStr corr_id])).

(** The line [ack abcdefghij]: holds the ID, not JSON. *)
Definition garbage_line : line := mkLine ("ack " ++ corr_id) None.

Definition list_groups_payload : list (string * json) :=
  [("type", JStr "list_groups"); ("username", JStr bot)].

(** A line that the blocking scan passes over without stopping: it does
    not hold the ID, or it is a JSON object whose [id] is another value. *)
Definition passed_over (msg_id : string) (l : line) : Prop :=
  contains_sub msg_id (raw l) = false \/
  exists kvs v, parsed l = Some (JObj kvs) /\
    py_get (JObj kvs) "id" JNull = inl v /\ is_str v msg_id = false.

(** The inbound line of the spec's scenario:
    [{"type":"message","data":{"username":"u","source":"+15551234567",
      "dataMessage":{"body":"ping","timestamp":42}}}] (no [sourceDevice]). *)
Definition ping_data : json :=
  JObj [("username", JStr "u"); ("source", JStr peer);
        ("dataMessage", JObj [("body", JStr "ping"); ("timestamp", JNum 42)])].

Definition ping_envelope : json :=
  JObj [("type", JStr "message"); ("data", ping_data)].

Definition ping_message : Message :=
  mkMessage (JStr "u") (JStr peer) (JStr "ping") JNull (JNum 42) JNull []
            (JObj []) [].

(** [re.search("ping", text, re.I)] on lowercase input. *)
Definition search_ping (txt : string) : option string :=
  if contains_sub "ping" txt then Some "ping" else None.

(** A handler that raises, and one that returns ["pong"]. *)
Definition failing_reg : registration :=
  mkReg 10 search_ping (fun _ _ => HRaise).

Definition pong_reg : registration :=
  mkReg 10 search_ping (fun _ _ => HReturn (RVal (JStr "pong"))).

Definition pong_direct : list (string * json) :=
  fst (send_message_cmd bot (JStr peer) (JStr "pong")).

(** The trace of a message on which every pattern is evaluated and nothing
    else happens. *)
Fixpoint evals_only (hs : list registration) : trace :=
  match hs with
  | [] => TDone
  | r :: rest => TCons (Eval r) (evals_only rest)
  end.

Definition ping_msg_text : string := "ping".

(** Ordering of the handler list. *)
Definition by_order (a b : registration) : Prop := (order a <= order b)%Z.

Definition with_order (k : Z) (r : registration) : bool := Z.eqb (order r) k.

(** Registering [B] then [A] with the same order keeps [B] first. *)
Definition reg_b : registration := mkReg 5 search_ping (fun _ _ => HReturn (RVal (JStr "b"))).

Definition reg_a : registration := mkReg 5 search_ping (fun _ _ => HReturn (RVal (JStr "a"))).

Definition reg_first : registration := mkReg 1 search_ping (fun _ _ => HRaise).

(** The message ["ping"] from a group whose [groupId] is the empty string. *)
Definition empty_group_message : Message :=
  mkMessage (JStr "u") (JStr peer) (JStr "ping") JNull (JNum 42) JNull []
            (JObj [("groupId", JStr EmptyString)]) [].

(** The message ["ping"] from the group ["G1"]. *)
Definition g1_message : Message :=
  mkMessage (JStr "u") (JStr peer) (JStr "ping") JNull (JNum 42) JNull []
            (JObj [("groupId", JStr "G1")]) [].

(** The message ["ping"] whose [group_info] is [{"groupId": null}]. *)
Definition null_group_message : Message :=
  mkMessage (JStr "u") (JStr peer) (JStr "ping") JNull JNull JNull []
            (JObj [("groupId", JNull)]) [].

(** ** Further operations of [src/main.py] *)

(** [readlines(s)]: the bytes [s.recv(1)] returns one by one, then either
    the peer closes ([recv] returns [b""], [closed = true]) or nothing more
    has arrived yet ([closed = false], the generator blocks).  [buf] holds
    the bytes read since the last newline. *)
Definition newline : Ascii.ascii := Ascii.ascii_of_nat 10.

Fixpoint readlines_from (buf : list Ascii.ascii) (input : list Ascii.ascii)
    (closed : bool) : list string * option exn :=
  match input with
  | [] => ([], if closed then Some ConnectionResetError else None)
  | c :: rest =>
      if Ascii.eqb c newline then
        let (ls, e) := readlines_from [] rest closed in
        (string_of_list_ascii buf :: ls, e)
      else readlines_from (buf ++ [c])%list rest closed
  end.

Definition readlines (input : list Ascii.ascii) (closed : bool)
  : list string * option exn :=
  readlines_from [] input closed.

(** The bytes of newline-terminated lines. *)
Definition frame_lines (ls : list string) : list Ascii.ascii :=
  flat_map (fun l => (list_ascii_of_string l ++ [newline])%list) ls.

(** [_get_id()]: ten [random.choice] draws from the alphabet; [draw i] is
    the index the [i]-th draw picks. *)
Definition id_alphabet : string := "abcdefghijklmnopqrstuvwxyz0123456789".

Definition _get_id (draw : nat -> nat) : string :=
  string_of_list_ascii
    (map (fun i => nth (draw i) (list_ascii_of_string id_alphabet) "a"%char)
         (seq 0 10)).

(** The messages yielded and the exception, if any, that ended the
    stream (forgetting the value [message] is left with). *)
Definition observed (res : list Message * stream_end) : list Message * option exn :=
  (fst res, match snd res with Terminated e => Some e | Waiting _ => None end).

(** The four keys [Attachment] reads from every attachment item. *)
Definition complete_attachment (a : json) : Prop :=
  exists kvs ct i sz sf, a = JObj kvs /\
    assoc "contentType" kvs = Some ct /\ assoc "id" kvs = Some i /\
    assoc "size" kvs = Some sz /\ assoc "storedFilename" kvs = Some sf.

(** An attachment item as the daemon sends it. *)
Definition photo_attachment : json :=
  JObj [("contentType", JStr "image/png"); ("id", JStr "a1"); ("size", JNum 7);
        ("storedFilename", JStr "/tmp/a1")].

(** The same item without [storedFilename]. *)
Definition truncated_attachment : json :=
  JObj [("contentType", JStr "image/png"); ("id", JStr "a1"); ("size", JNum 7)].

(** A typing notification, and a receipt (not a [message] event). *)
Definition typing_envelope : json :=
  JObj [("type", JStr "message");
        ("data", JObj [("source", JStr peer); ("typing", JObj [])])].

Definition receipt_envelope : json :=
  JObj [("type", JStr "receipt"); ("data", JObj [])].

(** Handlers that return [(False, "seen")] and a tuple of three items. *)
Definition seen_reg : registration :=
  mkReg 1 search_ping (fun _ _ => HReturn (RTuple [JBool false; JStr "seen"])).

Definition triple_reg : registration :=
  mkReg 1 search_ping (fun _ _ => HReturn (RTuple [JBool false; JStr "a"; JStr "b"])).


(** The response line [{"id": "abcdefghij", "type": "groups"}]. *)
Definition groups_line : line :=
  mkLine ("{" ++ quoted "id" ++ ": " ++ quoted corr_id ++ ", " ++ quoted "type"
          ++ ": " ++ quoted "groups" ++ "}")
         (Some (JObj [("id", JStr corr_id); ("type", JStr "groups")])).

(** A line of daemon chatter without the ID. *)
Definition noise_line : line := mkLine "ready" None.

(** A daemon that rejects every command. *)
Definition daemon_fail : list (string * json) -> bool -> option exn :=
  fun _ _ => Some ProtocolError.

(** The line [{"id": "zzzzzzzzzz", "ref": "abcdefghij"}]: holds the ID
    as a substring, but is the envelope of another request. *)
Definition other_id_line : line :=
  mkLine ("{" ++ quoted "id" ++ ": " ++ quoted "zzzzzzzzzz" ++ ", " ++ quoted "ref"
          ++ ": " ++ quoted corr_id ++ "}")
         (Some (JObj [("id", JStr "zzzzzzzzzz"); ("ref", JStr corr_id)])).

(** The four fields of an [Attachment] built from item [a]. *)
Definition attachment_of (a : json) (x : Attachment) : Prop :=
  exists kvs, a = JObj kvs /\
    assoc "contentType" kvs = Some (content_type x) /\ assoc "id" kvs = Some (att_id x) /\
    assoc "size" kvs = Some (size x) /\ assoc "storedFilename" kvs = Some (stored_filename x).

Example error_line_blocking :
  snd (_send_command list_groups_payload true corr_id [error_line])
  = Raised ProtocolError.
Proof. reflexivity. Qed.

(** ** The command client *)

(** C3, counterexample: [register] answered with an [unexpected_error]
    envelope for its ID returns normally, where the same payload sent in
    blocking mode raises [ProtocolError]. *)
Lemma register_does_not_block :
  snd (register bot false corr_id [error_line]) = Returned None /\
  snd (_send_command [("type", JStr "register"); ("username", JStr bot);
                      ("voice", JBool false)] true corr_id [error_line])
  = Raised ProtocolError.
Proof. split; reflexivity. Qed.

(** C3 (amended): [register] and [verify] send their command with
    [block=False]: each is the non-blocking [_send_command] of its payload,
    returns [None] whatever the daemon answers, and never raises
    [ProtocolError]. *)
Theorem register_verify_fire_and_forget :
  forall (user : string) (voice : bool) (code msg_id : string)
         (response : list line),
    register user voice msg_id response =
      _send_command [("type", JStr "register"); ("username", JStr user);
                     ("voice", JBool voice)] false msg_id response /\
    verify user code msg_id response =
      _send_command [("type", JStr "verify"); ("username", JStr user);
                     ("code", JStr code)] false msg_id response /\
    snd (register user voice msg_id response) = Returned None /\
    snd (verify user code msg_id response) = Returned None.
Proof. intros; repeat split. Qed.

(** C4, counterexample: a blocking call whose correlated envelope has type
    [unexpected_error] raises [AttributeError], not [ProtocolError], when an
    earlier line of the chunk holds the ID inside a JSON list. *)
Lemma protocol_error_masked :
  snd (_send_command list_groups_payload true corr_id [array_line; error_line])
  = Raised AttributeError.
Proof. reflexivity. Qed.

Lemma scan_response_app (msg_id : string) (pre post : list line) :
  Forall (passed_over msg_id) pre ->
  scan_response msg_id (pre ++ post) = scan_response msg_id post.
Proof.
  induction 1 as [|l pre Hl _ IH]; [reflexivity|].
  simpl. destruct Hl as [Hc | (kvs & v & Hp & Hg & Hs)].
  - rewrite Hc. exact IH.
  - destruct (contains_sub msg_id (raw l)); simpl; [|exact IH].
    rewrite Hp, Hg, Hs. exact IH.
Qed.

(** C4 (amended): with [block=False] the call returns [None] whatever the
    daemon sends, so it never raises [ProtocolError].  With [block=True]: if
    every line of the chunk before the correlated one is passed over (it
    lacks the ID, or is a JSON object with another [id]), and the correlated
    line (it holds the ID and is a JSON object whose [id] is the ID) has type
    [unexpected_error], the call raises [ProtocolError]; an earlier line
    holding the ID that decodes to a JSON value other than an object makes
    the call raise [AttributeError] instead. *)
Theorem send_command_protocol_error :
  (forall (payload : list (string * json)) (msg_id : string)
          (pre post : list line) (l : line) (kvs : list (string * json)),
      Forall (passed_over msg_id) pre ->
      contains_sub msg_id (raw l) = true ->
      parsed l = Some (JObj kvs) ->
      assoc "id" kvs = Some (JStr msg_id) ->
      assoc "type" kvs = Some (JStr "unexpected_error") ->
      snd (_send_command payload true msg_id (pre ++ l :: post))
      = Raised ProtocolError) /\
  (forall (payload : list (string * json)) (msg_id : string)
          (pre post : list line) (l : line) (d : json),
      Forall (passed_over msg_id) pre ->
      contains_sub msg_id (raw l) = true ->
      parsed l = Some d -> (forall kvs, d <> JObj kvs) ->
      snd (_send_command payload true msg_id (pre ++ l :: post))
      = Raised AttributeError) /\
  (forall (payload : list (string * json)) (msg_id : string)
          (response : list line),
      snd (_send_command payload false msg_id response) = Returned None).
Proof.
  split; [|split; [|reflexivity]].
  - intros payload msg_id pre post l kvs Hpre Hc Hp Hid Hty.
    simpl. rewrite scan_response_app by exact Hpre. simpl.
    rewrite Hc, Hp. simpl. rewrite Hid. simpl.
    rewrite String.eqb_refl. simpl. rewrite Hty. reflexivity.
  - intros payload msg_id pre post l d Hpre Hc Hp Hd.
    simpl. rewrite scan_response_app by exact Hpre. simpl.
    rewrite Hc, Hp. simpl.
    destruct d; try reflexivity. exfalso. exact (Hd kvs eq_refl).
Qed.

Lemma send_command_protocol_error_witness :
  Forall (passed_over corr_id) [noise_line; other_id_line] /\
  snd (_send_command list_groups_payload true corr_id
         ([noise_line; other_id_line] ++ error_line :: [noise_line]))
  = Raised ProtocolError /\
  snd (_send_command list_groups_payload true corr_id
         ([noise_line; other_id_line] ++ array_line :: [error_line]))
  = Raised AttributeError.
Proof.
  assert (Hpre : Forall (passed_over corr_id) [noise_line; other_id_line]).
  { constructor; [left; reflexivity|].
    constructor; [|constructor].
    right. exists [("id", JStr "zzzzzzzzzz"); ("ref", JStr corr_id)], (JStr "zzzzzzzzzz").
    split; [reflexivity | split; reflexivity]. }
  split; [exact Hpre|]. split.
  - apply (proj1 send_command_protocol_error list_groups_payload corr_id
             [noise_line; other_id_line] [noise_line] error_line
             [("id", JStr corr_id); ("type", JStr "unexpected_error")] Hpre);
      reflexivity.
  - apply (proj1 (proj2 send_command_protocol_error) list_groups_payload corr_id
             [noise_line; other_id_line] [error_line] array_line
             (JArr [JStr corr_id]) Hpre); [reflexivity | reflexivity | discriminate].
Defined.

(** C8: a blocking call whose chunk holds a non-JSON line with the ID
    before the daemon's reply raises [JSONDecodeError] at the unguarded
    [json.loads(line)], instead of skipping the line and returning the
    reply it returns when the line is absent. *)
Theorem undecodable_line_hides_reply :
  snd (_send_command list_groups_payload true corr_id [garbage_line; groups_line])
  = Raised JSONDecodeError /\
  snd (_send_command list_groups_payload true corr_id [groups_line])
  = Returned (Some (JObj [("id", JStr corr_id); ("type", JStr "groups")])).
Proof. split; reflexivity. Qed.

(** ** The message stream reader *)

Example ping_decodes :
  receive_messages [Some ping_envelope] = ([ping_message], Waiting (Some ping_data)).
Proof. reflexivity. Qed.

(** C2: a malformed first line is not skipped: [message] is still unbound
    when [message.get("type")] runs, so the stream ends with
    [UnboundLocalError] and the message after it is never yielded, while
    without the malformed line it is. *)
Theorem malformed_first_line_ends_stream :
  receive_messages [None; Some ping_envelope] = ([], Terminated UnboundLocalError) /\
  receive_messages [Some ping_envelope] = ([ping_message], Waiting (Some ping_data)).
Proof. split; reflexivity. Qed.

(** C7: a [message] event whose data omits [sourceDevice] yields a
    [Message] whose [source_device] is [None] ([JNull]), not 0: the
    constructor receives [message.get("sourceDevice")] explicitly, which
    overrides the field's default. *)
Theorem missing_source_device_is_none :
  exists st, receive_messages [Some ping_envelope] = ([ping_message], st) /\
  source_device ping_message = JNull /\ source_device ping_message <> JNum 0.
Proof.
  eexists. split; [reflexivity|]. split; [reflexivity | discriminate].
Qed.

Lemma recv_loop_app (st : option json) (pre post : list (option json))
    (ms : list Message) (st' : option json) :
  recv_loop st pre = (ms, Waiting st') ->
  recv_loop st (pre ++ post) =
    ((ms ++ fst (recv_loop st' post))%list, snd (recv_loop st' post)).
Proof.
  revert st ms. induction pre as [|l pre IH]; intros st ms H.
  - simpl in H. inversion H; subst. simpl. destruct (recv_loop st' post); reflexivity.
  - simpl in H |- *. destruct (recv_step st l) as [s1 | m s1 | e].
    + exact (IH s1 ms H).
    + destruct (recv_loop s1 pre) as [ms1 e1] eqn:E.
      inversion H; subst. rewrite (IH s1 ms1 E). reflexivity.
    + discriminate H.
Qed.

(** C10: wherever it arrives in the stream, an envelope whose [type] is
    ["message"] and that has no ["data"] key makes [receive_messages] raise
    [KeyError] (at [message['data']]), ending the stream: the messages
    yielded before it are all there is. *)
Theorem message_without_data_raises :
  forall (pre rest : list (option json)) (ms : list Message)
         (st : option json) (kvs : list (string * json)),
    receive_messages pre = (ms, Waiting st) ->
    assoc "type" kvs = Some (JStr "message") ->
    assoc "data" kvs = None ->
    receive_messages (pre ++ Some (JObj kvs) :: rest) = (ms, Terminated KeyError).
Proof.
  intros pre rest ms st kvs Hpre Hty Hdata.
  unfold receive_messages in *. rewrite (recv_loop_app _ _ _ _ _ Hpre).
  simpl. unfold recv_step, py_get, py_getitem. rewrite Hty. simpl. rewrite Hdata.
  simpl. rewrite app_nil_r. reflexivity.
Qed.

Lemma message_without_data_raises_witness :
  receive_messages [Some ping_envelope] = ([ping_message], Waiting (Some ping_data)) /\
  receive_messages ([Some ping_envelope] ++ Some (JObj [("type", JStr "message")]) ::
                    [Some ping_envelope])
  = ([ping_message], Terminated KeyError).
Proof.
  split; [reflexivity|].
  apply (message_without_data_raises [Some ping_envelope] [Some ping_envelope]
           [ping_message] (Some ping_data) [("type", JStr "message")]);
    reflexivity.
Defined.

(** ** The chat dispatcher *)

Example ping_pong :
  run_chat bot daemon_ok [pong_reg] [Some ping_envelope]
  = TCons (Eval pong_reg) (TCons (Cmd pong_direct true) TDone).
Proof. reflexivity. Qed.

(** C1, counterexample: after the first registration's handler raises on
    the message ["ping"], the next registration is still evaluated against
    the same message, and its reply is sent. *)
Lemma failing_handler_falls_through :
  run_chat bot daemon_ok [failing_reg; pong_reg] [Some ping_envelope]
  = TCons (Eval failing_reg)
      (TCons (Eval pong_reg) (TCons (Cmd pong_direct true) TDone)).
Proof. reflexivity. Qed.

Lemma dispatch_all_raise (un : string) (out : list (string * json) -> bool -> option exn)
    (m : Message) (txt : string) (hs : list registration) :
  (forall r mt, In r hs -> func r m mt = HRaise) ->
  dispatch un out m txt hs = evals_only hs.
Proof.
  induction hs as [|r rest IH]; intros Hall; [reflexivity|].
  simpl. rewrite IH by (intros r' mt Hin; apply Hall; right; exact Hin).
  destruct (search r txt) as [mt|]; [|reflexivity].
  rewrite (Hall r mt (or_introl eq_refl)). reflexivity.
Qed.

(** C1 (amended): when a matching registration's handler raises, the
    exception is swallowed and no command is issued for it: the dispatch of
    that message goes on with the next registration exactly as if the pattern
    had not matched.  When every handler raises, the message yields only the
    evaluations of the patterns and the loop goes on with the next message. *)
Theorem handler_exception_swallowed :
  (forall (un : string) (out : list (string * json) -> bool -> option exn)
          (m : Message) (txt : string) (r : registration)
          (rest : list registration) (mt : string),
      search r txt = Some mt -> func r m mt = HRaise ->
      dispatch un out m txt (r :: rest) = TCons (Eval r) (dispatch un out m txt rest)) /\
  (forall (un : string) (out : list (string * json) -> bool -> option exn)
          (hs : list registration) (m : Message) (txt : string)
          (ms : list Message),
      text m = JStr txt -> txt <> EmptyString ->
      (forall r mt, In r hs -> func r m mt = HRaise) ->
      run_messages un out hs (m :: ms) = tapp (evals_only hs) (run_messages un out hs ms)).
Proof.
  split.
  - intros un out m txt r rest mt Hs Hf. simpl. rewrite Hs, Hf. reflexivity.
  - intros un out hs m txt ms Ht Hne Hall. simpl. unfold handle_message.
    rewrite Ht. simpl.
    destruct (String.eqb txt EmptyString) eqn:E.
    + apply String.eqb_eq in E. contradiction.
    + simpl. rewrite (dispatch_all_raise un out m txt hs Hall). reflexivity.
Qed.

Lemma handler_exception_swallowed_witness :
  dispatch bot daemon_ok ping_message ping_msg_text (failing_reg :: [pong_reg])
  = TCons (Eval failing_reg) (dispatch bot daemon_ok ping_message ping_msg_text [pong_reg]) /\
  run_messages bot daemon_ok [failing_reg] (ping_message :: [ping_message])
  = tapp (evals_only [failing_reg]) (run_messages bot daemon_ok [failing_reg] [ping_message]).
Proof.
  split.
  - apply (proj1 handler_exception_swallowed bot daemon_ok ping_message
             ping_msg_text failing_reg [pong_reg] "ping"); reflexivity.
  - apply (proj2 handler_exception_swallowed bot daemon_ok [failing_reg]
             ping_message ping_msg_text [ping_message]);
      [reflexivity | discriminate |].
    intros r mt Hin. destruct Hin as [<- | []]. reflexivity.
Defined.

Lemma insert_by_order_sorted (r : registration) (l : list registration) :
  Sorted by_order l -> Sorted by_order (insert_by_order r l).
Proof.
  induction 1 as [|r' l Hl IH Hhd]; simpl; [repeat constructor|].
  destruct (Z.leb (order r) (order r')) eqn:E.
  - apply Z.leb_le in E. constructor; [constructor; assumption | constructor; exact E].
  - apply Z.leb_gt in E. constructor; [exact IH|].
    destruct l as [|r'' l]; simpl; [constructor; unfold by_order; lia|].
    inversion Hhd; subst.
    destruct (Z.leb (order r) (order r'')); constructor; unfold by_order in *; lia.
Qed.

Lemma sort_by_order_sorted (l : list registration) :
  Sorted by_order (sort_by_order l).
Proof.
  induction l as [|r l IH]; simpl; [constructor|].
  apply insert_by_order_sorted, IH.
Qed.

Lemma filter_insert_by_order (k : Z) (r : registration) (l : list registration) :
  filter (with_order k) (insert_by_order r l) =
  if with_order k r then r :: filter (with_order k) l else filter (with_order k) l.
Proof.
  induction l as [|r' l IH]; simpl; [destruct (with_order k r); reflexivity|].
  destruct (Z.leb (order r) (order r')) eqn:E; simpl.
  - reflexivity.
  - rewrite IH. unfold with_order in *.
    destruct (Z.eqb (order r) k) eqn:Ek; destruct (Z.eqb (order r') k) eqn:Ek';
      try reflexivity.
    apply Z.eqb_eq in Ek, Ek'. apply Z.leb_gt in E. lia.
Qed.

Lemma filter_sort_by_order (k : Z) (l : list registration) :
  filter (with_order k) (sort_by_order l) = filter (with_order k) l.
Proof.
  induction l as [|r l IH]; simpl; [reflexivity|].
  rewrite filter_insert_by_order, IH. reflexivity.
Qed.

Lemma fold_chat_handler (rs acc : list registration) :
  (Sorted by_order acc -> Sorted by_order (fold_left chat_handler rs acc)) /\
  (forall k, filter (with_order k) (fold_left chat_handler rs acc) =
             filter (with_order k) (acc ++ rs)).
Proof.
  revert acc. induction rs as [|r rs IH]; intros acc; simpl.
  - rewrite app_nil_r. split; [tauto | reflexivity].
  - split.
    + intros _. apply (proj1 (IH (chat_handler acc r))). apply sort_by_order_sorted.
    + intros k. rewrite (proj2 (IH (chat_handler acc r)) k).
      unfold chat_handler. rewrite !filter_app, filter_sort_by_order, !filter_app.
      simpl. destruct (with_order k r); simpl; rewrite <- app_assoc; reflexivity.
Qed.

Lemma dispatch_evaluated_prefix (un : string)
    (out : list (string * json) -> bool -> option exn)
    (m : Message) (txt : string) (hs : list registration) :
  exists suffix, hs = (evaluated (dispatch un out m txt hs) ++ suffix)%list.
Proof.
  induction hs as [|r rest [suf IH]]; [exists []; reflexivity|].
  simpl.
  destruct (search r txt) as [mt|].
  2:{ exists suf. simpl. f_equal. exact IH. }
  destruct (func r m mt) as [|v].
  { exists suf. simpl. f_equal. exact IH. }
  destruct (unpack_reply v) as [[stop reply]|e].
  2:{ exists rest. reflexivity. }
  destruct (route_reply un m reply) as [[payload block]|e].
  2:{ exists rest. reflexivity. }
  destruct (out payload block) as [e|].
  { exists rest. reflexivity. }
  destruct (truthy stop).
  - exists rest. reflexivity.
  - exists suf. simpl. f_equal. exact IH.
Qed.

Lemma handle_message_evaluated_prefix (un : string)
    (out : list (string * json) -> bool -> option exn)
    (hs : list registration) (m : Message) :
  exists suffix, hs = (evaluated (handle_message un out hs m) ++ suffix)%list.
Proof.
  unfold handle_message.
  destruct (negb (truthy (text m))); [exists hs; reflexivity|].
  destruct (text m); try (destruct hs as [|r rest]; [exists []; reflexivity|
                                                     exists rest; reflexivity]).
  apply dispatch_evaluated_prefix.
Qed.

Example equal_order_keeps_sequence :
  register_all [reg_b; reg_a; reg_first] = [reg_first; reg_b; reg_a].
Proof. reflexivity. Qed.

(** C5: after any sequence of [chat_handler] registrations [rs], the handler
    list is sorted by ascending [order]; for every order value it holds the
    registrations of that order in the sequence they were registered (the
    stable sort on the order key alone); and the dispatch of any message
    evaluates registrations along that list: the patterns it evaluates are a
    prefix of it, in list order. *)
Theorem handlers_sorted_stably :
  forall rs : list registration,
    Sorted by_order (register_all rs) /\
    (forall k, filter (with_order k) (register_all rs) = filter (with_order k) rs) /\
    (forall (un : string) (out : list (string * json) -> bool -> option exn)
            (m : Message),
        exists suffix,
          register_all rs =
          (evaluated (handle_message un out (register_all rs) m) ++ suffix)%list).
Proof.
  intros rs. unfold register_all.
  destruct (fold_chat_handler rs []) as [Hs Hf].
  split; [apply Hs; constructor|]. split.
  - intros k. rewrite Hf. reflexivity.
  - intros un out m. apply handle_message_evaluated_prefix.
Qed.

(** ** Reply routing *)

Lemma dispatch_reply_routed (un : string)
    (out : list (string * json) -> bool -> option exn)
    (m : Message) (txt : string) (r : registration) (rest : list registration)
    (mt : string) (v : retval) (stop reply : json)
    (payload : list (string * json)) (block : bool) :
  search r txt = Some mt -> func r m mt = HReturn v ->
  unpack_reply v = inl (stop, reply) ->
  route_reply un m reply = inl (payload, block) ->
  exists t, dispatch un out m txt (r :: rest) = TCons (Eval r) (TCons (Cmd payload block) t).
Proof.
  intros Hs Hf Hu Hr. simpl. rewrite Hs, Hf, Hu, Hr. eexists. reflexivity.
Qed.

(** C6, counterexample: a message whose [group_info] holds the key
    [groupId] (with the empty string) gets its reply through [send_message]
    to [message.source], not through [send_group_message]. *)
Lemma empty_group_id_routes_direct :
  handle_message bot daemon_ok [pong_reg] empty_group_message
  = TCons (Eval pong_reg) (TCons (Cmd pong_direct true) TDone).
Proof. reflexivity. Qed.

(** C6 (amended): when a matching handler returns a reply for a message
    whose [group_info] is a dict: if its [groupId] is present and truthy,
    the one command issued is [send_group_message]'s (non-blocking), with
    [recipientGroupId] that value; otherwise (absent, or falsy) it is
    [send_message]'s (blocking), to [message.source]. *)
Theorem reply_routing :
  forall (un : string) (out : list (string * json) -> bool -> option exn)
         (m : Message) (txt : string) (r : registration)
         (rest : list registration) (mt : string) (v : retval)
         (stop reply : json) (kvs : list (string * json)),
    search r txt = Some mt -> func r m mt = HReturn v ->
    unpack_reply v = inl (stop, reply) -> group_info m = JObj kvs ->
    (forall g, assoc "groupId" kvs = Some g -> truthy g = true ->
       assoc "recipientGroupId" (fst (send_group_message_cmd un g reply)) = Some g /\
       exists t, dispatch un out m txt (r :: rest) =
         TCons (Eval r) (TCons (Cmd (fst (send_group_message_cmd un g reply)) false) t)) /\
    ((forall g, assoc "groupId" kvs = Some g -> truthy g = false) ->
       exists t, dispatch un out m txt (r :: rest) =
         TCons (Eval r) (TCons (Cmd (fst (send_message_cmd un (source m) reply)) true) t)).
Proof.
  intros un out m txt r rest mt v stop reply kvs Hs Hf Hu Hg. split.
  - intros g Ha Ht. split; [reflexivity|].
    apply (dispatch_reply_routed un out m txt r rest mt v stop reply); try assumption.
    unfold route_reply, py_get. rewrite Hg, Ha, Ht. reflexivity.
  - intros Hfalsy.
    apply (dispatch_reply_routed un out m txt r rest mt v stop reply); try assumption.
    unfold route_reply, py_get. rewrite Hg.
    destruct (assoc "groupId" kvs) as [g|] eqn:Ha.
    + rewrite (Hfalsy g eq_refl). reflexivity.
    + reflexivity.
Qed.

Lemma reply_routing_witness :
  exists t, dispatch bot daemon_ok g1_message ping_msg_text [pong_reg] =
    TCons (Eval pong_reg)
      (TCons (Cmd (fst (send_group_message_cmd bot (JStr "G1") (JStr "pong"))) false) t).
Proof.
  apply (proj1 (reply_routing bot daemon_ok g1_message ping_msg_text pong_reg []
           "ping" (RVal (JStr "pong")) (JBool true) (JStr "pong")
           [("groupId", JStr "G1")] eq_refl eq_refl eq_refl eq_refl)
           (JStr "G1") eq_refl eq_refl).
Defined.

(** C9: routing tests the truthiness of [groupId], not the presence of the
    key: when [group_info] holds [groupId] with a falsy value (empty string,
    [None], 0, ...), the reply goes through [send_message] to
    [message.source]. *)
Theorem falsy_group_id_routes_direct :
  forall (un : string) (out : list (string * json) -> bool -> option exn)
         (m : Message) (txt : string) (r : registration)
         (rest : list registration) (mt : string) (v : retval)
         (stop reply g : json) (kvs : list (string * json)),
    search r txt = Some mt -> func r m mt = HReturn v ->
    unpack_reply v = inl (stop, reply) -> group_info m = JObj kvs ->
    assoc "groupId" kvs = Some g -> truthy g = false ->
    exists t, dispatch un out m txt (r :: rest) =
      TCons (Eval r) (TCons (Cmd (fst (send_message_cmd un (source m) reply)) true) t).
Proof.
  intros un out m txt r rest mt v stop reply g kvs Hs Hf Hu Hg Ha Ht.
  apply (dispatch_reply_routed un out m txt r rest mt v stop reply); try assumption.
  unfold route_reply, py_get. rewrite Hg, Ha, Ht. reflexivity.
Qed.

Lemma falsy_group_id_routes_direct_witness :
  (exists t, dispatch bot daemon_ok empty_group_message ping_msg_text [pong_reg] =
    TCons (Eval pong_reg) (TCons (Cmd pong_direct true) t)) /\
  (exists t, dispatch bot daemon_ok null_group_message ping_msg_text [pong_reg] =
    TCons (Eval pong_reg) (TCons (Cmd pong_direct true) t)).
Proof.
  split.
  - apply (falsy_group_id_routes_direct bot daemon_ok empty_group_message
             ping_msg_text pong_reg [] "ping" (RVal (JStr "pong")) (JBool true)
             (JStr "pong") (JStr EmptyString) [("groupId", JStr EmptyString)]);
      reflexivity.
  - apply (falsy_group_id_routes_direct bot daemon_ok null_group_message
             ping_msg_text pong_reg []
             "ping" (RVal (JStr "pong")) (JBool true) (JStr "pong") JNull
             [("groupId", JNull)]); reflexivity.
Defined.

(** * Further properties of the code *)

(** ** [readlines] *)

Lemma readlines_from_app (buf l rest : list ascii) (closed : bool) :
  ~ In newline l ->
  readlines_from buf (l ++ rest) closed = readlines_from (buf ++ l)%list rest closed.
Proof.
  revert buf. induction l as [|c l IH]; intros buf Hn.
  - rewrite app_nil_r. reflexivity.
  - simpl. destruct (Ascii.eqb c newline) eqn:E.
    + apply Ascii.eqb_eq in E. subst c. exfalso. apply Hn. left. reflexivity.
    + rewrite IH by (intros H; apply Hn; right; exact H).
      rewrite <- app_assoc. reflexivity.
Qed.

(** [readlines] yields exactly the newline-terminated lines of what it
    reads, without their newline, in order; bytes after the last newline are
    never yielded; when the peer closes it raises [ConnectionResetError],
    otherwise it blocks waiting for more bytes. *)
Theorem readlines_frames :
  forall (ls : list string) (partial : list ascii) (closed : bool),
    Forall (fun l => ~ In newline (list_ascii_of_string l)) ls ->
    ~ In newline partial ->
    readlines (frame_lines ls ++ partial) closed =
      (ls, if closed then Some ConnectionResetError else None).
Proof.
  intros ls partial closed Hls Hp. unfold readlines.
  induction Hls as [|l ls Hl _ IH].
  - simpl. rewrite <- (app_nil_r partial) at 1.
    rewrite readlines_from_app by exact Hp. simpl. reflexivity.
  - simpl. rewrite <- app_assoc, <- (app_assoc (list_ascii_of_string l) [newline]).
    rewrite readlines_from_app by exact Hl. simpl.
    replace (Ascii.eqb newline newline) with true by (symmetry; apply Ascii.eqb_refl).
    rewrite IH.
    rewrite string_of_list_ascii_of_string. reflexivity.
Qed.

Lemma readlines_frames_witness :
  readlines (frame_lines ["ab"; EmptyString] ++ ["c"%char]) true =
    (["ab"; EmptyString], Some ConnectionResetError).
Proof.
  apply readlines_frames.
  - constructor; [|constructor; [|constructor]];
      simpl; intros H; intuition discriminate.
  - simpl. intros H; intuition discriminate.
Defined.

(** ** [_get_id] *)

Lemma length_string_of_list_ascii (l : list ascii) :
  String.length (string_of_list_ascii l) = length l.
Proof. induction l as [|c l IH]; simpl; [reflexivity | rewrite IH; reflexivity]. Qed.

(** When every [random.choice] draw picks an index of the 36-character
    alphabet, the correlation ID is 10 characters long and each of them is a
    lowercase letter or a digit of that alphabet. *)
Theorem get_id_shape :
  forall draw : nat -> nat,
    (forall i, draw i < 36) ->
    String.length (_get_id draw) = 10 /\
    forall c, In c (list_ascii_of_string (_get_id draw)) ->
              In c (list_ascii_of_string id_alphabet).
Proof.
  intros draw Hd. unfold _get_id. split.
  - rewrite length_string_of_list_ascii, length_map, length_seq. reflexivity.
  - rewrite list_ascii_of_string_of_list_ascii. intros c Hc.
    apply in_map_iff in Hc. destruct Hc as [i [<- _]].
    apply nth_In. exact (Hd i).
Qed.

Lemma get_id_shape_witness :
  (forall i, Nat.min (i * 3) 35 < 36) /\
  String.length (_get_id (fun i => Nat.min (i * 3) 35)) = 10.
Proof.
  assert (H : forall i, Nat.min (i * 3) 35 < 36) by (intros i; lia).
  split; [exact H|].
  exact (proj1 (get_id_shape (fun i => Nat.min (i * 3) 35) H)).
Defined.

(** ** [_send_command] and the methods built on it *)

Lemma assoc_set_key_same (k : string) (v : json) (kvs : list (string * json)) :
  assoc k (set_key k v kvs) = Some v.
Proof.
  induction kvs as [|[k' v'] kvs IH]; simpl.
  - rewrite String.eqb_refl. reflexivity.
  - destruct (String.eqb k' k) eqn:E; simpl; rewrite E; [reflexivity | exact IH].
Qed.

Lemma assoc_set_key_other (k k2 : string) (v : json) (kvs : list (string * json)) :
  k2 <> k -> assoc k2 (set_key k v kvs) = assoc k2 kvs.
Proof.
  intros Hne. induction kvs as [|[k' v'] kvs IH]; simpl.
  - destruct (String.eqb k k2) eqn:E; [|reflexivity].
    apply String.eqb_eq in E. congruence.
  - destruct (String.eqb k' k) eqn:E; simpl.
    + apply String.eqb_eq in E. subst k'.
      destruct (String.eqb k k2) eqn:E2; [apply String.eqb_eq in E2; congruence|].
      reflexivity.
    + destruct (String.eqb k' k2); [reflexivity | exact IH].
Qed.

(** The command [_send_command] writes, blocking or not, is the payload
    with its [id] key set to the correlation ID (overwriting any [id] the
    caller put there) and every other key unchanged. *)
Theorem send_command_writes_payload_with_id :
  forall (payload : list (string * json)) (block : bool) (msg_id : string)
         (response : list line),
    exists kvs, fst (_send_command payload block msg_id response) = JObj kvs /\
      assoc "id" kvs = Some (JStr msg_id) /\
      (forall k, k <> "id" -> assoc k kvs = assoc k payload).
Proof.
  intros payload block msg_id response.
  exists (set_key "id" (JStr msg_id) payload). split.
  - unfold _send_command. destruct block; reflexivity.
  - split; [apply assoc_set_key_same|].
    intros k Hk. apply assoc_set_key_other. exact Hk.
Qed.

Lemma send_command_writes_payload_with_id_witness :
  exists kvs, fst (_send_command list_groups_payload true corr_id []) = JObj kvs /\
    assoc "id" kvs = Some (JStr corr_id) /\ assoc "type" kvs = Some (JStr "list_groups").
Proof.
  destruct (send_command_writes_payload_with_id list_groups_payload true corr_id [])
    as [kvs [Hs [Hid Hk]]].
  exists kvs. split; [exact Hs|]. split; [exact Hid|].
  rewrite (Hk "type"); [reflexivity | discriminate].
Defined.

(** A blocking call that returns an envelope returns the decoded form of a
    line of the chunk that holds the correlation ID, whose [id] field is
    exactly that ID and whose [type] is not [unexpected_error]. *)
Theorem blocking_result_correlated :
  forall (payload : list (string * json)) (msg_id : string)
         (response : list line) (data : json),
    snd (_send_command payload true msg_id response) = Returned (Some data) ->
    exists l, In l response /\ contains_sub msg_id (raw l) = true /\
      parsed l = Some data /\ py_get data "id" JNull = inl (JStr msg_id) /\
      exists t, py_getitem data "type" = inl t /\ is_str t "unexpected_error" = false.
Proof.
  intros payload msg_id response data. simpl.
  induction response as [|l rest IH]; simpl; [discriminate|].
  destruct (contains_sub msg_id (raw l)) eqn:Hc; simpl.
  2:{ intros H. destruct (IH H) as [l' [Hin Hl']]. exists l'. split; [right; exact Hin | exact Hl']. }
  destruct (parsed l) as [d|] eqn:Hp; [|discriminate].
  destruct (py_get d "id" JNull) as [v|e] eqn:Hg; [|discriminate].
  destruct (is_str v msg_id) eqn:Hv; simpl.
  2:{ intros H. destruct (IH H) as [l' [Hin Hl']]. exists l'. split; [right; exact Hin | exact Hl']. }
  destruct (py_getitem d "type") as [t|e] eqn:Ht; [|discriminate].
  destruct (is_str t "unexpected_error") eqn:Hu; [discriminate|].
  intros H. inversion H; subst d.
  exists l. split; [left; reflexivity|]. split; [exact Hc|]. split; [exact Hp|].
  split.
  - destruct v; try discriminate. simpl in Hv. apply String.eqb_eq in Hv. subst. exact Hg.
  - exists t. split; [exact Ht | exact Hu].
Qed.

Lemma blocking_result_correlated_witness :
  snd (_send_command list_groups_payload true corr_id [noise_line; groups_line])
  = Returned (Some (JObj [("id", JStr corr_id); ("type", JStr "groups")])) /\
  exists l, In l [noise_line; groups_line] /\ contains_sub corr_id (raw l) = true /\
    parsed l = Some (JObj [("id", JStr corr_id); ("type", JStr "groups")]) /\
    py_get (JObj [("id", JStr corr_id); ("type", JStr "groups")]) "id" JNull
      = inl (JStr corr_id) /\
    exists t, py_getitem (JObj [("id", JStr corr_id); ("type", JStr "groups")]) "type"
                = inl t /\ is_str t "unexpected_error" = false.
Proof.
  split; [reflexivity|].
  apply (blocking_result_correlated list_groups_payload corr_id
           [noise_line; groups_line]).
  reflexivity.
Defined.

(** A blocking call whose chunk has no line for the request (every line
    either lacks the ID or is an object with another [id]) returns [None]:
    a missing response is not an error. *)
Theorem blocking_without_response_returns_none :
  forall (payload : list (string * json)) (msg_id : string) (response : list line),
    Forall (passed_over msg_id) response ->
    snd (_send_command payload true msg_id response) = Returned None.
Proof.
  intros payload msg_id response H. simpl.
  rewrite <- (app_nil_r response). rewrite scan_response_app by exact H.
  reflexivity.
Qed.

Lemma blocking_without_response_returns_none_witness :
  Forall (passed_over corr_id) [noise_line] /\
  snd (_send_command list_groups_payload true corr_id [noise_line]) = Returned None.
Proof.
  assert (H : Forall (passed_over corr_id) [noise_line]).
  { constructor; [left; reflexivity | constructor]. }
  split; [exact H|].
  exact (blocking_without_response_returns_none list_groups_payload corr_id _ H).
Defined.

(** ** [receive_messages] *)

Lemma recv_loop_valid_indep (st st' : option json) (ls : list (option json)) :
  Forall (fun l => l <> None) ls ->
  observed (recv_loop st ls) = observed (recv_loop st' ls).
Proof.
  intros H. revert st st'. induction H as [|l ls Hl _ IH]; intros st st'; [reflexivity|].
  destruct l as [j|]; [|contradiction]. simpl.
  destruct (recv_step (Some j) (Some j)) as [s1 | m s1 | e] eqn:E;
    replace (recv_step st (Some j)) with (recv_step (Some j) (Some j)) by reflexivity;
    replace (recv_step st' (Some j)) with (recv_step (Some j) (Some j)) by reflexivity;
    rewrite E.
  - reflexivity.
  - specialize (IH s1 s1).
    destruct (recv_loop s1 ls) as [ms e]. reflexivity.
  - reflexivity.
Qed.

Lemma observed_recv_loop_app (st : option json) (pre post : list (option json))
    (ms : list Message) (st' : option json) :
  recv_loop st pre = (ms, Waiting st') ->
  observed (recv_loop st (pre ++ post)) =
    ((ms ++ fst (observed (recv_loop st' post)))%list, snd (observed (recv_loop st' post))).
Proof.
  intros H. rewrite (recv_loop_app _ _ _ _ _ H). reflexivity.
Qed.

(** An envelope whose [type] is not ["message"], or a [message] whose data
    holds a [typing] key, is dropped without a trace: in a stream of
    well-formed JSON lines, the messages yielded and the way the stream ends
    are the same as if it had never arrived. *)
Theorem skipped_envelope_invisible :
  forall (pre rest : list (option json)) (ms : list Message) (st : option json)
         (env : json),
    receive_messages pre = (ms, Waiting st) ->
    Forall (fun l => l <> None) rest ->
    (exists t, py_get env "type" JNull = inl t /\ is_str t "message" = false) \/
    (exists d, py_get env "type" JNull = inl (JStr "message") /\
               py_getitem env "data" = inl d /\ py_in "typing" d = inl true) ->
    observed (receive_messages (pre ++ Some env :: rest)) =
    observed (receive_messages (pre ++ rest)).
Proof.
  intros pre rest ms st env Hpre Hrest Hskip. unfold receive_messages in *.
  rewrite !(observed_recv_loop_app _ _ _ _ _ Hpre).
  assert (Hstep : recv_step st (Some env) = SSkip (Some env)).
  { unfold recv_step.
    destruct Hskip as [(t & Ht & Hm) | (d & Ht & Hd & Hin)].
    - rewrite Ht, Hm. reflexivity.
    - rewrite Ht. simpl. rewrite Hd, Hin. reflexivity. }
  assert (Hc : recv_loop st (Some env :: rest) = recv_loop (Some env) rest).
  { simpl. rewrite Hstep. reflexivity. }
  rewrite Hc, (recv_loop_valid_indep (Some env) st rest Hrest). reflexivity.
Qed.

Lemma skipped_envelope_invisible_witness :
  observed (receive_messages ([Some ping_envelope] ++ Some typing_envelope :: [Some ping_envelope]))
  = observed (receive_messages ([Some ping_envelope] ++ [Some ping_envelope])) /\
  observed (receive_messages ([] ++ Some receipt_envelope :: [Some ping_envelope]))
  = observed (receive_messages ([] ++ [Some ping_envelope])).
Proof.
  split.
  - apply (skipped_envelope_invisible [Some ping_envelope] [Some ping_envelope]
             [ping_message] (Some ping_data) typing_envelope).
    + reflexivity.
    + constructor; [discriminate | constructor].
    + right. exists (JObj [("source", JStr peer); ("typing", JObj [])]).
      split; [reflexivity | split; reflexivity].
  - apply (skipped_envelope_invisible [] [Some ping_envelope] [] None receipt_envelope).
    + reflexivity.
    + constructor; [discriminate | constructor].
    + left. exists (JStr "receipt"). split; reflexivity.
Defined.

(** A line that is valid JSON but not an object (a number, string, list,
    [null] or boolean) ends the stream with [AttributeError] at
    [message.get("type")]. *)
Theorem non_object_line_raises :
  forall (pre rest : list (option json)) (ms : list Message) (st : option json)
         (j : json),
    receive_messages pre = (ms, Waiting st) ->
    (forall kvs, j <> JObj kvs) ->
    receive_messages (pre ++ Some j :: rest) = (ms, Terminated AttributeError).
Proof.
  intros pre rest ms st j Hpre Hj. unfold receive_messages in *.
  rewrite (recv_loop_app _ _ _ _ _ Hpre). simpl.
  destruct j; try (simpl; rewrite app_nil_r; reflexivity).
  exfalso. exact (Hj kvs eq_refl).
Qed.

Lemma non_object_line_raises_witness :
  receive_messages ([Some ping_envelope] ++ Some (JNum 5) :: [Some ping_envelope])
  = ([ping_message], Terminated AttributeError).
Proof.
  apply (non_object_line_raises [Some ping_envelope] [Some ping_envelope]
           [ping_message] (Some ping_data) (JNum 5)); [reflexivity | discriminate].
Defined.

(** Attachment items that all carry [contentType], [id], [size] and
    [storedFilename] become one [Attachment] each, in order, with those
    values; the first item (after complete ones) that is a dict missing any
    of the four keys makes the decoding raise [KeyError]: it is not dropped. *)
Theorem attachments_decoded :
  (forall items, Forall complete_attachment items ->
     exists xs, make_attachments items = inl xs /\ Forall2 attachment_of items xs) /\
  (forall pre kvs post, Forall complete_attachment pre ->
     (assoc "contentType" kvs = None \/ assoc "id" kvs = None \/
      assoc "size" kvs = None \/ assoc "storedFilename" kvs = None) ->
     make_attachments (pre ++ JObj kvs :: post) = inr KeyError).
Proof.
  split.
  - induction 1 as [|a items Ha _ [xs [Hxs Hall]]].
    + exists []. split; constructor.
    + destruct Ha as (kvs & ct & i & sz & sf & -> & Hct & Hi & Hsz & Hsf).
      exists (mkAttachment ct i sz sf :: xs). split.
      * simpl. unfold make_attachment, py_getitem.
        rewrite Hct, Hi, Hsz, Hsf, Hxs. reflexivity.
      * constructor; [|exact Hall].
        exists kvs. simpl. repeat split; assumption.
  - intros pre kvs post Hpre Hmiss. induction Hpre as [|a pre Ha _ IH].
    + simpl. unfold make_attachment, py_getitem. revert Hmiss.
      destruct (assoc "contentType" kvs), (assoc "id" kvs), (assoc "size" kvs),
        (assoc "storedFilename" kvs); try reflexivity.
      intros [H | [H | [H | H]]]; discriminate.
    + destruct Ha as (akvs & ct & i & sz & sf & -> & Hct & Hi & Hsz & Hsf).
      simpl. unfold make_attachment at 1, py_getitem at 1 2 3 4.
      rewrite Hct, Hi, Hsz, Hsf, IH. reflexivity.
Qed.

Lemma attachments_decoded_witness :
  (exists xs, make_attachments [photo_attachment] = inl xs /\
              Forall2 attachment_of [photo_attachment] xs) /\
  make_attachments ([photo_attachment] ++ truncated_attachment :: [])
  = inr KeyError.
Proof.
  assert (Hc : Forall complete_attachment [photo_attachment]).
  { constructor; [|constructor].
    eexists _, _, _, _, _. split; [reflexivity|].
    repeat split; reflexivity. }
  split.
  - exact (proj1 attachments_decoded [photo_attachment] Hc).
  - apply (proj2 attachments_decoded [photo_attachment]
             [("contentType", JStr "image/png"); ("id", JStr "a1"); ("size", JNum 7)]
             [] Hc).
    right; right; right. reflexivity.
Defined.

(** A [message] event whose data has no [dataMessage] (and no [typing]
    key) still yields a [Message], with the defaults: text [""], empty
    [group_info], no attachments, no timestamp; and [run_chat] evaluates no
    pattern and sends nothing for it. *)
Theorem bodyless_message_ignored :
  forall (kvs : list (string * json)) (un : string)
         (out : list (string * json) -> bool -> option exn) (hs : list registration),
    existsb (fun kv => String.eqb (fst kv) "typing") kvs = false ->
    assoc "dataMessage" kvs = None ->
    (exists m st,
       receive_messages [Some (JObj [("type", JStr "message"); ("data", JObj kvs)])]
       = ([m], Waiting st) /\
       text m = JStr EmptyString /\ group_info m = JObj [] /\ attachments m = [] /\
       timestamp m = JNull) /\
    run_chat un out hs [Some (JObj [("type", JStr "message"); ("data", JObj kvs)])] = TDone.
Proof.
  intros kvs un out hs Ht Hd.
  assert (Hb : exists m, build_message (JObj kvs) = inl m /\
             text m = JStr EmptyString /\ group_info m = JObj [] /\
             attachments m = [] /\ timestamp m = JNull).
  { unfold build_message, py_get. rewrite Hd. simpl.
    destruct (assoc "username" kvs), (assoc "source" kvs), (assoc "sourceDevice" kvs),
      (assoc "timestampISO" kvs);
      (eexists; split; [reflexivity | repeat split]). }
  destruct Hb as [m [Hm Hfields]].
  assert (Hr : receive_messages [Some (JObj [("type", JStr "message"); ("data", JObj kvs)])]
               = ([m], Waiting (Some (JObj kvs)))).
  { unfold receive_messages. cbn -[existsb build_message]. rewrite Ht, Hm. reflexivity. }
  split.
  - exists m, (Some (JObj kvs)). split; [exact Hr | exact Hfields].
  - unfold run_chat. rewrite Hr. simpl. unfold handle_message.
    destruct Hfields as [-> _]. reflexivity.
Qed.

Lemma bodyless_message_ignored_witness :
  run_chat bot daemon_ok [pong_reg]
    [Some (JObj [("type", JStr "message"); ("data", JObj [("source", JStr peer)])])]
  = TDone.
Proof.
  apply (bodyless_message_ignored [("source", JStr peer)] bot daemon_ok [pong_reg]);
    reflexivity.
Defined.

(** ** [run_chat] *)

(** After a matching handler's reply has been sent, a bare return value or
    a tuple with a truthy [stop] ends the dispatch of the message (no later
    registration is evaluated); a tuple with a falsy [stop] goes on with the
    next registration. *)
Theorem reply_stop_flag :
  forall (un : string) (out : list (string * json) -> bool -> option exn)
         (m : Message) (txt : string) (r : registration) (rest : list registration)
         (mt : string) (stop reply : json) (payload : list (string * json)) (block : bool),
    search r txt = Some mt ->
    route_reply un m reply = inl (payload, block) ->
    out payload block = None ->
    (func r m mt = HReturn (RVal reply) ->
       dispatch un out m txt (r :: rest) = TCons (Eval r) (TCons (Cmd payload block) TDone)) /\
    (func r m mt = HReturn (RTuple [stop; reply]) -> truthy stop = true ->
       dispatch un out m txt (r :: rest) = TCons (Eval r) (TCons (Cmd payload block) TDone)) /\
    (func r m mt = HReturn (RTuple [stop; reply]) -> truthy stop = false ->
       dispatch un out m txt (r :: rest) =
         TCons (Eval r) (TCons (Cmd payload block) (dispatch un out m txt rest))).
Proof.
  intros un out m txt r rest mt stop reply payload block Hs Hr Ho.
  repeat split; intros Hf; [|intros Ht|intros Ht]; simpl; rewrite Hs, Hf; simpl;
    rewrite Hr, Ho; try rewrite Ht; reflexivity.
Qed.

Lemma reply_stop_flag_witness :
  dispatch bot daemon_ok ping_message ping_msg_text (seen_reg :: [pong_reg]) =
    TCons (Eval seen_reg)
      (TCons (Cmd (fst (send_message_cmd bot (JStr peer) (JStr "seen"))) true)
         (dispatch bot daemon_ok ping_message ping_msg_text [pong_reg])).
Proof.
  apply (proj2 (proj2 (reply_stop_flag bot daemon_ok ping_message ping_msg_text
           seen_reg [pong_reg] "ping" (JBool false) (JStr "seen")
           (fst (send_message_cmd bot (JStr peer) (JStr "seen"))) true
           eq_refl eq_refl eq_refl)));
    reflexivity.
Defined.

Lemma unpack_reply_arity (items : list json) :
  length items <> 2 -> unpack_reply (RTuple items) = inr ValueError_unpack.
Proof. destruct items as [|a [|b [|c l]]]; simpl; intros H; congruence. Qed.

(** Two failures are not swallowed by [run_chat]: a handler returning a
    tuple of other than two items ([ValueError] on unpacking) and a reply
    command that raises (e.g. [ProtocolError] from the blocking
    [send_message]).  Either ends the loop: the messages after it are not
    processed. *)
Theorem dispatch_errors_end_loop :
  forall (un : string) (out : list (string * json) -> bool -> option exn)
         (m : Message) (txt : string) (r : registration) (rest : list registration)
         (mt : string) (ms : list Message),
    text m = JStr txt -> txt <> EmptyString -> search r txt = Some mt ->
    (forall items, func r m mt = HReturn (RTuple items) -> length items <> 2 ->
       run_messages un out (r :: rest) (m :: ms) =
         TCons (Eval r) (TRaise ValueError_unpack)) /\
    (forall v stop reply payload block e,
       func r m mt = HReturn v -> unpack_reply v = inl (stop, reply) ->
       route_reply un m reply = inl (payload, block) -> out payload block = Some e ->
       run_messages un out (r :: rest) (m :: ms) =
         TCons (Eval r) (TCons (Cmd payload block) (TRaise e))).
Proof.
  intros un out m txt r rest mt ms Htx Hne Hs.
  assert (Hh : handle_message un out (r :: rest) m = dispatch un out m txt (r :: rest)).
  { unfold handle_message. rewrite Htx. simpl.
    destruct (String.eqb txt EmptyString) eqn:E; [apply String.eqb_eq in E; contradiction|].
    reflexivity. }
  split.
  - intros items Hf Hl. simpl run_messages. rewrite Hh. simpl.
    rewrite Hs, Hf, (unpack_reply_arity items Hl). reflexivity.
  - intros v stop reply payload block e Hf Hu Hr Ho. simpl run_messages. rewrite Hh.
    simpl. rewrite Hs, Hf, Hu, Hr, Ho. reflexivity.
Qed.

Lemma dispatch_errors_end_loop_witness :
  run_messages bot daemon_ok (triple_reg :: []) (ping_message :: [ping_message]) =
    TCons (Eval triple_reg) (TRaise ValueError_unpack) /\
  run_messages bot daemon_fail (pong_reg :: []) (ping_message :: [ping_message]) =
    TCons (Eval pong_reg) (TCons (Cmd pong_direct true) (TRaise ProtocolError)).
Proof.
  split.
  - apply (proj1 (dispatch_errors_end_loop bot daemon_ok ping_message ping_msg_text
             triple_reg [] "ping" [ping_message] eq_refl ltac:(discriminate) eq_refl)
             [JBool false; JStr "a"; JStr "b"] eq_refl).
    discriminate.
  - apply (proj2 (dispatch_errors_end_loop bot daemon_fail ping_message ping_msg_text
             pong_reg [] "ping" [ping_message] eq_refl ltac:(discriminate) eq_refl)
             (RVal (JStr "pong")) (JBool true) (JStr "pong") pong_direct true
             ProtocolError); reflexivity.
Defined.

(** A message whose text no registered pattern finds sends nothing: every
    pattern is evaluated once, in list order, and the loop goes on. *)
Theorem unmatched_message_no_reply :
  forall (un : string) (out : list (string * json) -> bool -> option exn)
         (hs : list registration) (m : Message) (txt : string),
    (forall r, In r hs -> search r txt = None) ->
    dispatch un out m txt hs = evals_only hs.
Proof.
  intros un out hs m txt H. induction hs as [|r rest IH]; [reflexivity|].
  simpl. rewrite (H r (or_introl eq_refl)).
  rewrite IH by (intros r' Hin; apply H; right; exact Hin). reflexivity.
Qed.

Lemma unmatched_message_no_reply_witness :
  dispatch bot daemon_ok ping_message "hello" [pong_reg; seen_reg]
  = evals_only [pong_reg; seen_reg].
Proof.
  apply unmatched_message_no_reply.
  intros r [<- | [<- | []]]; reflexivity.
Defined.
